(** * A shallow embedding of the eegos RPC framework (network and rpc packages)

    The wire frame ([Session.pack] / [Session.Reader]), the session state
    machine ([Start], [Close], [Release], [doWrite]), the server dispatch
    loop ([TcpServer.processInData]), the RPC server entry point
    ([Server.Message]) and the RPC client ([Client.Message], [Client.Call]).

    Bytes are [Z] values; Go's unsigned conversions [uint8(x)] and
    [uint16(x)] are written out as masks.  A Go panic is modelled as [None]
    in an [option] result. *)

From Stdlib Require Import ZArith List String Ascii Lia.
From stdpp Require Import base gmap strings list.
Import ListNotations.
Open Scope Z_scope.
Set Warnings "-register-all".

(* ------------------------------------------------------------------ *)
(** ** Constants (part_003) *)

(** Connection states: [NEW_CONNECTION = iota], [WORKING], [CLOSING], [CLOSED]. *)
Definition NEW_CONNECTION : Z := 0.
Definition WORKING : Z := 1.
Definition CLOSING : Z := 2.
Definition CLOSED : Z := 3.

(** Frame kinds: [PKG_TYPE = iota], [HEARTBEAT], [HEARTBEAT_RET], [DATA]. *)
Definition PKG_TYPE : Z := 0.
Definition HEARTBEAT : Z := 1.
Definition HEARTBEAT_RET : Z := 2.
Definition DATA : Z := 3.

(** [type Data struct { dType uint8; head uint16; body []byte }] *)
Record Data := mkData { dType : Z; head : Z; body : list Z }.

(** Go's [uint8(x)] and [uint16(x)]. *)
Definition uint8 (x : Z) : Z := Z.land x 255.
Definition uint16 (x : Z) : Z := Z.land x 65535.

(* ------------------------------------------------------------------ *)
(** ** Wire frame (part_002: pack, Reader) *)

(** [func (this *Session) pack(head uint16, dType uint8, body []byte) (pkg []byte)] *)
Definition pack (head_ : Z) (dType_ : Z) (body_ : list Z) : list Z :=
  let length0 := Z.of_nat (length body_) in
  let '(length, body') :=
    if 65535 <? length0 then (0, []) else (length0, body_) in
  [uint8 length; uint8 (Z.shiftr length 8); dType_; uint8 head_;
   uint8 (Z.shiftr head_ 8)] ++ body'.

(** [io.ReadFull(conn, buf)] with [len(buf) = n]: it fails unless [n]
    bytes are available. *)
Definition read_full (n : nat) (conn : list Z) : option (list Z * list Z) :=
  if Nat.leb n (length conn) then Some (firstn n conn, skipn n conn) else None.

(** [func (this *Session) Reader() (err error)]: the decoded frame (the
    value pushed on [inData]) and the rest of the stream; [None] is a
    returned read error. *)
Definition Reader (conn : list Z) : option (Data * list Z) :=
  match read_full 5 conn with
  | Some ([b0; b1; b2; b3; b4], rest) =>
      let pkgLen := uint16 (uint16 b0 + Z.shiftl (uint16 b1) 8) in
      let dType_ := b2 in
      let head_ := uint16 (uint16 b3 + Z.shiftl (uint16 b4) 8) in
      if 0 <? pkgLen then
        match read_full (Z.to_nat pkgLen) rest with
        | Some (body_, rest') => Some (mkData dType_ head_ body_, rest')
        | None => None
        end
      else Some (mkData dType_ head_ [], rest)
  | _ => None
  end.

(* ------------------------------------------------------------------ *)
(** ** Session (part_002) *)

(** [type Session struct]: the fields the claims depend on.  The three
    channels [inData], [outData] and [cClose] are represented by their
    closed flags; the buffered [outData] channel also by its contents. *)
Record session := mkSession {
  fd : Z;
  state : Z;
  inData_closed : bool;
  outData_closed : bool;
  cClose_closed : bool;
  outData : list (list Z)
}.

(** Go's [close(ch)]: closing a closed channel panics. *)
Definition close_chan (closed : bool) : option bool :=
  if closed then None else Some true.

(** [CreateSession(conn, msgHandle)], with [fd] the counter value it drew. *)
Definition CreateSession (fd_ : Z) : session :=
  mkSession fd_ NEW_CONNECTION false false false [].

Definition set_state (st : Z) (s : session) : session :=
  mkSession (fd s) st (inData_closed s) (outData_closed s) (cClose_closed s) (outData s).

(** [func (this *Session) Start()]: the pumps it launches are not modelled. *)
Definition Start (s : session) : session := set_state WORKING s.

(** [func (this *Session) Close()] *)
Definition Close (s : session) : session := set_state CLOSING s.

(** [func (this *Session) Release()] *)
Definition Release (s : session) : option session :=
  i ← close_chan (inData_closed s);
  o ← close_chan (outData_closed s);
  c ← close_chan (cClose_closed s);
  Some (mkSession (fd s) CLOSED i o c (outData s)).

(** [this.outData <- pkg]: sending on a closed channel panics.  The
    blocking of a full buffer is not modelled: the frame is queued. *)
Definition send_outData (pkg : list Z) (s : session) : option session :=
  if outData_closed s then None
  else Some (mkSession (fd s) (state s) (inData_closed s) (outData_closed s)
               (cClose_closed s) (outData s ++ [pkg])).

(** [func (this *Session) doWrite(head uint16, dType uint8, data []byte)];
    a nil [data] and [[]byte{}] are both the empty list here. *)
Definition doWrite (head_ dType_ : Z) (data : list Z) (s : session) : option session :=
  if negb (state s =? WORKING) then Some s
  else send_outData (pack head_ dType_ data) s.

(** The sessions the connection managers build: [NewSession] creates a
    session and starts it at once; afterwards it may be closed (the
    recover in [handleNewConn]), written to, and released (in
    [TcpConn.Close]). *)
Inductive lifecycle : session -> Prop :=
| lc_created fd_ : lifecycle (CreateSession fd_)
| lc_started fd_ : lifecycle (Start (CreateSession fd_))
| lc_closed s : lifecycle s -> lifecycle (Close s)
| lc_written s h k d s' : lifecycle s -> doWrite h k d s = Some s' -> lifecycle s'
| lc_released s s' : lifecycle s -> Release s = Some s' -> lifecycle s'.

(** Session operations as a sequence of calls, with the trace of states. *)
Inductive session_op := OpStart | OpClose | OpRelease.

Definition apply_op (o : session_op) (s : session) : option session :=
  match o with
  | OpStart => Some (Start s)
  | OpClose => Some (Close s)
  | OpRelease => Release s
  end.

Fixpoint run_ops (s : session) (ops : list session_op) : option (list Z) :=
  match ops with
  | [] => Some [state s]
  | o :: ops' =>
      s' ← apply_op o s;
      tr ← run_ops s' ops';
      Some (state s :: tr)
  end.

(** A trace moves forward when no state is below its predecessor. *)
Fixpoint forward (tr : list Z) : bool :=
  match tr with
  | x :: (y :: _) as tr' => (x <=? y) && forward tr'
  | _ => true
  end.

Definition op_target (o : session_op) : Z :=
  match o with OpStart => WORKING | OpClose => CLOSING | OpRelease => CLOSED end.

Fixpoint count_release (ops : list session_op) : nat :=
  match ops with
  | [] => 0
  | OpRelease :: ops' => S (count_release ops')
  | _ :: ops' => count_release ops'
  end.

(* ------------------------------------------------------------------ *)
(** ** Server dispatch loop (network/tcp.go, TcpServer.processInData) *)

(** Calls made on the [Handler] interface. *)
Inductive handler_event :=
| EvHeartbeat (fd_ sid : Z)
| EvMessage (fd_ sid : Z) (b : list Z).

(** One iteration of the loop on a frame taken from [inData]; the
    goroutines it spawns are run to completion, in the order spawned. *)
Definition server_process_frame (s : session) (d : Data)
  : option (session * list handler_event) :=
  if dType d =? HEARTBEAT then
    if negb (state s =? WORKING) then Some (s, [])
    else
      s' ← doWrite (head d) HEARTBEAT_RET [] s;
      Some (s', [EvHeartbeat (fd s) (head d)])
  else if dType d =? DATA then Some (s, [EvMessage (fd s) (head d) (body d)])
  else Some (s, []).

(* ------------------------------------------------------------------ *)
(** ** JSON values and Go reflection *)

(** The values [json.Unmarshal] stores in an [interface{}]: nil, bool,
    float64 (integral numbers here), string, [[]interface{}] and
    [map[string]interface{}]. *)
Inductive jvalue :=
| JNull
| JBool (b : bool)
| JNum (n : Z)
| JStr (s : string)
| JArr (l : list jvalue)
| JObj (l : list (string * jvalue)).

(** Declared parameter types of registered methods. *)
Inductive gotype :=
| TBool | TInt | TInt64 | TUint16 | TFloat64 | TString | TBytes
| TIface | TSliceIface | TMapIface.

(** A [reflect.Value] of a given type. *)
Record gvalue := GV { gtype : gotype; gval : jvalue }.

(** [reflect.ValueOf(x).Convert(t)]: [None] is the panic Go raises when
    the value's type is not convertible to [t], or when [x] is nil (the
    zero [Value]).  A float64 converts to every numeric type and to an
    interface; a string to string, [[]byte] and an interface; a bool to
    bool and an interface. *)
Definition convert (x : jvalue) (t : gotype) : option gvalue :=
  match x, t with
  | JNull, _ => None
  | _, TIface => Some (GV TIface x)
  | JBool _, TBool => Some (GV t x)
  | JNum n, (TInt | TInt64 | TFloat64) => Some (GV t x)
  | JNum n, TUint16 => Some (GV t (JNum (uint16 n)))
  | JStr _, (TString | TBytes) => Some (GV t x)
  | JArr _, TSliceIface => Some (GV t x)
  | JObj _, TMapIface => Some (GV t x)
  | _, _ => None
  end.

(** [strings.LastIndex(s, sep)] for a one-character [sep]; [None] is -1. *)
Fixpoint last_index (c : ascii) (s : string) : option nat :=
  match s with
  | EmptyString => None
  | String a s' =>
      match last_index c s' with
      | Some i => Some (S i)
      | None => if Ascii.eqb a c then Some 0%nat else None
      end
  end.

(* ------------------------------------------------------------------ *)
(** ** RPC server (part_000) *)

(** [type methodType struct { method reflect.Method; args []reflect.Type }] *)
Record methodType := mkMethodType { mname : string; margs : list gotype }.

(** [type Service struct]: the receiver is left implicit. *)
Record Service := mkService { sname : string; methods : gmap string methodType }.

(** [type Server struct]: sessions are keyed by fd. *)
Record Server := mkServer {
  serviceMap : gmap string Service;
  sessions : gmap Z session
}.

(** What [Server.Message] does when it returns normally. *)
Inductive msg_result :=
| MsgDropped
| MsgReply (s : session) (sid : Z) (retBody : list Z).

Section ServerMessage.
(** [json.Unmarshal(body, &args)] into [[]interface{}]. *)
Variable unmarshal : list Z -> option (list jvalue).
(** [json.Marshal(ret)]. *)
Variable marshal : list jvalue -> option (list Z).
(** [m.method.Func.Call(args)] followed by [Interface()] on each result. *)
Variable invoke : methodType -> list gvalue -> list jvalue.

(** The loop [callArgs[i+1] = reflect.ValueOf(args[i+1]).Convert(mInfo.args[i])]:
    a missing argument is an index-out-of-range panic. *)
Fixpoint convert_args (ts : list gotype) (xs : list jvalue) : option (list gvalue) :=
  match ts with
  | [] => Some []
  | t :: ts' =>
      match xs with
      | [] => None
      | x :: xs' =>
          v ← convert x t;
          vs ← convert_args ts' xs';
          Some (v :: vs)
      end
  end.

(** [func (this *Server) RunFunc(m *methodType, args []reflect.Value) []interface{}]:
    zero results give nil, here the empty list. *)
Definition RunFunc (m : methodType) (args : list gvalue) : list jvalue :=
  invoke m args.

(** [func (this *Server) Message(fd uint16, sessionID uint16, body []byte)];
    [None] is a panic. *)
Definition Server_Message (srv : Server) (fd_ sid : Z) (body_ : list Z)
  : option msg_result :=
  match sessions srv !! fd_ with
  | None => Some MsgDropped
  | Some s =>
    match unmarshal body_ with
    | None => Some MsgDropped
    | Some [] => Some MsgDropped
    | Some (a0 :: rest) =>
      match a0 with
      | JStr info =>
        match last_index "." info with
        | None => Some MsgDropped
        | Some dot =>
          let serviceName := substring 0 dot info in
          let methodName := substring (S dot) (String.length info - S dot) info in
          match serviceMap srv !! serviceName with
          | None => Some MsgDropped
          | Some sInfo =>
            match methods sInfo !! methodName with
            | None => Some MsgDropped
            | Some mInfo =>
              callArgs ← convert_args (margs mInfo) rest;
              match RunFunc mInfo callArgs with
              | [] => Some (MsgReply s sid [])
              | ret =>
                match marshal ret with
                | None => Some MsgDropped
                | Some retBody => Some (MsgReply s sid retBody)
                end
              end
            end
          end
        end
      | _ => None   (* args[0].(string) fails *)
      end
    end
  end.
End ServerMessage.

(* ------------------------------------------------------------------ *)
(** ** RPC client (part_001) *)

(** A waiter channel [chan []interface{}], by identity. *)
Definition chan_id := nat.

(** [type Client struct]: the pending-call table [callRet], the
    correlation counter of its [TcpClient] ([msgCounter.Num]), the
    channels allocated and closed so far, the values handed to waiters,
    and the client's session. *)
Record client := mkClient {
  callRet : gmap Z chan_id;
  msgCounter : Z;
  next_chan : chan_id;
  closed_chans : gset chan_id;
  delivered : list (chan_id * list jvalue);
  csession : session
}.

(** [func (this *Counter) GetNum() uint16]: [this.Num++] wraps at 65536,
    the new value is returned. *)
Definition GetNum (num : Z) : Z * Z :=
  let num' := uint16 (num + 1) in (num', num').

Section ClientOps.
Variable unmarshal : list Z -> option (list jvalue).
Variable marshal : list jvalue -> option (list Z).

(** [func (this *Client) Message(fd uint16, sessionID uint16, body []byte)]:
    [waitRet <- args] hands [args] to the waiter, then the entry is
    deleted and the channel closed.  [waitRet] is unbuffered
    ([make(chan []interface{})] in [Call]), so the send completes only
    when the [Call] that owns it is blocked in its [select];
    [receivers] is the set of waiter channels whose [Call] is blocked
    there at the time of the send.  A send on a closed channel panics
    ([None]).  With no receiver the handler goroutine (started by
    [go s.msgHandle] in [TcpClient.processInData]) blocks in the send
    forever: nothing is delivered, the entry stays and the channel stays
    open, so the client is left as it was. *)
Definition Client_Message (receivers : gset chan_id) (c : client) (fd_ sid : Z)
    (body_ : list Z) : option client :=
  match callRet c !! sid with
  | None => Some c
  | Some waitRet =>
    match unmarshal body_ with
    | None => Some c
    | Some args =>
      if decide (waitRet ∈ closed_chans c) then None
      else if decide (waitRet ∈ receivers) then
        Some (mkClient (delete sid (callRet c)) (msgCounter c) (next_chan c)
                ({[waitRet]} ∪ closed_chans c)
                (delivered c ++ [(waitRet, args)]) (csession c))
      else Some c
    end
  end.

(** How the [select] in [Call] ends: a value received on [waitRet], the
    channel found closed, or [time.After(3 * time.Second)] firing. *)
Inductive wait_outcome := WaitRecv (ret : list jvalue) | WaitClosed | WaitTimeout.

(** [func (this *Client) Call(v []interface{}) []interface{}]: the
    client after the call and the returned slice (nil is []).  [None]
    is a panic of the write. *)
Definition Client_Call (c : client) (v : list jvalue) (w : wait_outcome)
  : option (client * list jvalue) :=
  let '(num, sessionID) := GetNum (msgCounter c) in
  let waitRet := next_chan c in
  let c1 := mkClient (callRet c) num (S (next_chan c)) (closed_chans c)
              (delivered c) (csession c) in
  match marshal v with
  | None => Some (c1, [])
  | Some body_ =>
    let tbl := <[sessionID := waitRet]> (callRet c1) in
    s' ← doWrite sessionID DATA body_ (csession c1);
    let c2 := mkClient tbl (msgCounter c1) (next_chan c1) (closed_chans c1)
                (delivered c1) s' in
    match w with
    | WaitRecv ret => Some (c2, ret)
    | WaitClosed => Some (c2, [])
    | WaitTimeout => Some (c2, [])
    end
  end.
End ClientOps.

(* ------------------------------------------------------------------ *)
(** ** A decoder for a subset of JSON

    [json.Unmarshal] into [[]interface{}] for the inputs used in the
    concrete instances below: null, true, false, integers, strings
    without escapes, and arrays (objects, fractions, exponents and
    escapes are refused).  Like Go, it rejects an empty input and a
    top-level value that is neither an array nor null. *)

Definition bytes_of_string (s : string) : list Z :=
  map (fun a => Z.of_nat (nat_of_ascii a)) (list_ascii_of_string s).

Fixpoint skip_ws (bs : list Z) : list Z :=
  match bs with
  | c :: r => if (c =? 32) || (c =? 9) || (c =? 10) || (c =? 13) then skip_ws r else bs
  | [] => []
  end.

Definition is_digit (c : Z) : bool := (48 <=? c) && (c <=? 57).

Fixpoint parse_digits (acc : Z) (bs : list Z) : Z * list Z :=
  match bs with
  | c :: r => if is_digit c then parse_digits (acc * 10 + (c - 48)) r else (acc, bs)
  | [] => (acc, [])
  end.

Fixpoint parse_chars (acc : list ascii) (bs : list Z) : option (string * list Z) :=
  match bs with
  | [] => None
  | c :: r =>
      if c =? 34 then Some (string_of_list_ascii (rev acc), r)
      else if (c =? 92) || (c <? 32) then None
      else parse_chars (ascii_of_nat (Z.to_nat c) :: acc) r
  end.

Fixpoint parse_value (fuel : nat) (bs : list Z) : option (jvalue * list Z) :=
  match fuel with
  | O => None
  | S f =>
    match skip_ws bs with
    | 110 :: 117 :: 108 :: 108 :: r => Some (JNull, r)
    | 116 :: 114 :: 117 :: 101 :: r => Some (JBool true, r)
    | 102 :: 97 :: 108 :: 115 :: 101 :: r => Some (JBool false, r)
    | 34 :: r => '(s, r') ← parse_chars [] r; Some (JStr s, r')
    | 91 :: r =>
        match skip_ws r with
        | 93 :: r' => Some (JArr [], r')
        | _ => '(l, r') ← parse_items f r; Some (JArr l, r')
        end
    | 45 :: c :: r =>
        if is_digit c then let '(n, r') := parse_digits 0 (c :: r) in Some (JNum (- n), r')
        else None
    | c :: r =>
        if is_digit c then let '(n, r') := parse_digits 0 (c :: r) in Some (JNum n, r')
        else None
    | [] => None
    end
  end
with parse_items (fuel : nat) (bs : list Z) : option (list jvalue * list Z) :=
  match fuel with
  | O => None
  | S f =>
    '(v, r) ← parse_value f bs;
    match skip_ws r with
    | 44 :: r' => '(vs, r'') ← parse_items f r'; Some (v :: vs, r'')
    | 93 :: r' => Some ([v], r')
    | _ => None
    end
  end.

Definition json_unmarshal (bs : list Z) : option (list jvalue) :=
  match parse_value (S (length bs)) bs with
  | Some (v, r) =>
      match skip_ws r, v with
      | [], JArr l => Some l
      | [], JNull => Some []
      | _, _ => None
      end
  | None => None
  end.

(** A server with one session (fd 1) and one service [Arith] whose method
    [Add] takes one [int]. *)
Definition arith_server : Server :=
  mkServer {[ "Arith"%string := mkService "Arith" {[ "Add"%string := mkMethodType "Add" [TInt] ]} ]}
           {[ 1 := Start (CreateSession 1) ]}.

(** A JSON string literal, as bytes. *)
Definition json_quote (s : string) : list Z := [34] ++ bytes_of_string s ++ [34].

(** The call envelope [["Arith.Add","x"]]: a string where [Add] expects an [int]. *)
Definition add_x_body : list Z :=
  [91] ++ json_quote "Arith.Add" ++ [44] ++ json_quote "x" ++ [93].

(** A client whose call with correlation id 5 waits on channel 0. *)
Definition one_call_client : client :=
  mkClient {[ 5 := 0%nat ]} 5 1%nat ∅ [] (Start (CreateSession 1)).

(* ------------------------------------------------------------------ *)
(** ** Read and write pumps (part_002: handleRead, handleWrite) *)

(** The loop of [handleRead]: while the state is WORKING, decode one frame
    with [Reader] and push it on [inData]; stop at the first read error.
    Pushing on a closed [inData] panics, which the deferred [recover] turns
    into the end of the loop.  Each frame takes at least 5 bytes, so
    [length conn + 1] rounds cover the whole stream. *)
Fixpoint read_loop (fuel : nat) (s : session) (conn : list Z) : list Data :=
  match fuel with
  | O => []
  | S f =>
    if negb (state s =? WORKING) then []
    else
      match Reader conn with
      | None => []
      | Some (d, rest) => if inData_closed s then [] else d :: read_loop f s rest
      end
  end.

(** [func (this *Session) handleRead()]: the frames it pushes on [inData]. *)
Definition handleRead (s : session) (conn : list Z) : list Data :=
  read_loop (S (length conn)) s conn.

(** [func (this *Session) handleWrite()]: while WORKING, every frame taken
    from [outData] is written to the connection; the result is the session
    with an empty queue and the bytes written. *)
Definition handleWrite (s : session) : session * list Z :=
  if negb (state s =? WORKING) then (s, [])
  else (mkSession (fd s) (state s) (inData_closed s) (outData_closed s)
          (cClose_closed s) [], concat (outData s)).

(* ------------------------------------------------------------------ *)
(** ** Registration and connection on the server (part_000) *)

(** The reflected type of a receiver: [reflect.Indirect(rcvr).Type().Name()]
    and its methods, each with the parameter types after the receiver
    ([mtype.In(1) .. mtype.In(NumIn - 1)]). *)
Record rtype := mkRType { tname : string; tmethods : list (string * list gotype) }.

(** The loop [for m := 0; m < s.typ.NumMethod(); m++ { ... s.methods[mname] = &methodInfo }]. *)
Definition method_table (ms : list (string * list gotype)) : gmap string methodType :=
  fold_left (fun acc '(mn, ps) => <[mn := mkMethodType mn ps]> acc) ms ∅.

(** [func (this *Server) Register(rcvr interface{})] *)
Definition Register (srv : Server) (r : rtype) : Server :=
  mkServer (<[tname r := mkService (tname r) (method_table (tmethods r))]> (serviceMap srv))
           (sessions srv).

(** [func (this *Server) Connect(fd uint16, session *network.Session)] *)
Definition Server_Connect (srv : Server) (fd_ : Z) (s : session) : Server :=
  mkServer (serviceMap srv) (<[fd_ := s]> (sessions srv)).

(** [NewServer(addr)]: no services, no sessions. *)
Definition NewServer : Server := mkServer ∅ ∅.

(* ------------------------------------------------------------------ *)
(** ** Client close, dispatch and heartbeat (part_001, network/tcp.go) *)

(** [func (this *Client) Close(uint16)]: every entry of [callRet] is
    deleted and its channel closed, in the map's iteration order; closing
    a channel twice panics. *)
Definition Client_Close (c : client) : option client :=
  cl ← foldr (fun '(_, w) acc =>
                 acc ≫= fun cl => if decide (w ∈ cl) then None else Some ({[w]} ∪ cl))
             (Some (closed_chans c)) (map_to_list (callRet c));
  Some (mkClient ∅ (msgCounter c) (next_chan c) cl (delivered c) (csession c)).

(** What the client's dispatch loop does with a frame. *)
Inductive client_event :=
| CEvHeartbeatRet (sid : Z)                 (* [handleHeartbeatRet]: [cHeartbeat <- sid] *)
| CEvMessage (fd_ sid : Z) (b : list Z).    (* [s.msgHandle(s.fd, data.head, data.body)] *)

(** One iteration of [TcpClient.processInData] on a frame from [inData]. *)
Definition client_process_frame (s : session) (d : Data) : list client_event :=
  if dType d =? HEARTBEAT_RET then [CEvHeartbeatRet (head d)]
  else if dType d =? DATA then [CEvMessage (fd s) (head d) (body d)]
  else [].

(** One round of [TcpClient.heartbeat] up to the send: a fresh id from
    [msgCounter.GetNum()] and [s.doWrite(sessionID, HEARTBEAT, []byte{})];
    the new counter, the id and the session. *)
Definition heartbeat_send (num : Z) (s : session) : option (Z * Z * session) :=
  let '(num', sid) := GetNum num in
  s' ← doWrite sid HEARTBEAT [] s;
  Some (num', sid, s').

(** The ids returned by [n] successive calls of [GetNum] from [num]. *)
Fixpoint get_nums (num : Z) (n : nat) : list Z :=
  match n with
  | O => []
  | S n' => let '(num', id) := GetNum num in id :: get_nums num' n'
  end.

(** Successive [doWrite] calls on one session. *)
Fixpoint write_all (ws : list (Z * Z * list Z)) (s : session) : option session :=
  match ws with
  | [] => Some s
  | (h, k, d) :: ws' => s' ← doWrite h k d s; write_all ws' s'
  end.

(** A frame [pack] encodes faithfully: a 16-bit id, an 8-bit kind, a body
    of at most 65535 bytes. *)
Definition frame_ok (h k : Z) (d : list Z) : Prop :=
  0 <= h < 65536 /\ 0 <= k < 256 /\ Z.of_nat (length d) <= 65535.

(* ------------------------------------------------------------------ *)
(** ** Wire frame lemmas *)

Lemma uint8_mod (x : Z) : uint8 x = x mod 256.
Proof. unfold uint8. change 255 with (Z.ones 8). rewrite Z.land_ones; [reflexivity | lia]. Qed.

Lemma uint16_mod (x : Z) : uint16 x = x mod 65536.
Proof. unfold uint16. change 65535 with (Z.ones 16). rewrite Z.land_ones; [reflexivity | lia]. Qed.

Lemma uint16_split (x : Z) :
  0 <= x < 65536 ->
  uint16 (uint16 (uint8 x) + Z.shiftl (uint16 (uint8 (Z.shiftr x 8))) 8) = x.
Proof.
  intros Hx. rewrite !uint16_mod, !uint8_mod.
  rewrite Z.shiftr_div_pow2, Z.shiftl_mul_pow2 by lia.
  change (2 ^ 8) with 256. Z.to_euclidean_division_equations. nia.
Qed.

Lemma pack_small (h k : Z) (b : list Z) :
  (Z.of_nat (length b) <= 65535) ->
  pack h k b = [uint8 (Z.of_nat (length b)); uint8 (Z.shiftr (Z.of_nat (length b)) 8);
                k; uint8 h; uint8 (Z.shiftr h 8)] ++ b.
Proof. intros Hl. unfold pack. destruct (65535 <? _) eqn:E; [lia | reflexivity]. Qed.

Lemma pack_big (h k : Z) (b : list Z) :
  (65535 < Z.of_nat (length b)) ->
  pack h k b = [0; 0; k; uint8 h; uint8 (Z.shiftr h 8)].
Proof. intros Hl. unfold pack. destruct (65535 <? _) eqn:E; [reflexivity | lia]. Qed.

(** Decoding a packed frame gives the frame back and leaves the rest of
    the stream untouched. *)
Lemma Reader_pack (h k : Z) (b rest : list Z) :
  0 <= h < 65536 -> 0 <= k < 256 -> Z.of_nat (length b) <= 65535 ->
  Reader (pack h k b ++ rest) = Some (mkData k h b, rest).
Proof.
  intros Hh Hk Hl. rewrite pack_small by lia.
  unfold Reader, read_full. simpl.
  rewrite !uint16_split by lia.
  destruct (0 <? Z.of_nat (length b)) eqn:E.
  - rewrite Nat2Z.id, drop_0, (proj2 (Nat.leb_le _ _)) by (rewrite length_app; lia).
    rewrite take_app_length, drop_app_length. reflexivity.
  - apply Z.ltb_ge in E. destruct b; [reflexivity | simpl in E; lia].
Qed.


(* ------------------------------------------------------------------ *)
(** ** Session lemmas *)

(** In a session the connection managers build, [outData] is open while
    the state is [WORKING]. *)
Lemma lifecycle_working_open (s : session) :
  lifecycle s -> state s = WORKING -> outData_closed s = false.
Proof.
  induction 1 as [fd_|fd_|s Hs IH|s h k d s' Hs IH Hw|s s' Hs IH Hr]; intros Hst.
  - reflexivity.
  - reflexivity.
  - discriminate Hst.
  - unfold doWrite, send_outData in Hw.
    destruct (state s =? WORKING) eqn:E; simpl in Hw.
    + destruct (outData_closed s) eqn:Ec; [discriminate|].
      injection Hw as <-. reflexivity.
    + injection Hw as <-. auto.
  - unfold Release, close_chan in Hr.
    destruct (inData_closed s), (outData_closed s), (cClose_closed s);
      simpl in Hr; try discriminate.
    injection Hr as <-. discriminate Hst.
Qed.

Lemma doWrite_lifecycle (s : session) (h k : Z) (d : list Z) :
  lifecycle s ->
  doWrite h k d s =
    if state s =? WORKING then
      Some (mkSession (fd s) (state s) (inData_closed s) (outData_closed s)
              (cClose_closed s) (outData s ++ [pack h k d]))
    else Some s.
Proof.
  intros Hs. unfold doWrite, send_outData.
  destruct (state s =? WORKING) eqn:E; simpl; [|reflexivity].
  rewrite (lifecycle_working_open s Hs) by lia. reflexivity.
Qed.

(** Running operations from a session whose three channels are all open
    or all closed. *)
Lemma run_ops_flags (ops : list session_op) : forall (s : session) (r : bool),
  inData_closed s = r -> outData_closed s = r -> cClose_closed s = r ->
  run_ops s ops =
    if Nat.leb (count_release ops + (if r then 1 else 0)) 1
    then Some (state s :: map op_target ops) else None.
Proof.
  induction ops as [|o ops IH]; intros s r Hi Ho Hc.
  - destruct r; reflexivity.
  - destruct o; simpl.
    + rewrite (IH (Start s) r Hi Ho Hc). simpl.
      destruct (Nat.leb _ 1); reflexivity.
    + rewrite (IH (Close s) r Hi Ho Hc). simpl.
      destruct (Nat.leb _ 1); reflexivity.
    + unfold Release, close_chan. rewrite Hi, Ho, Hc. destruct r; simpl.
      * match goal with |- context [Nat.leb ?a ?b] =>
          destruct (Nat.leb_spec a b); [lia | reflexivity] end.
      * rewrite (IH (mkSession (fd s) CLOSED true true true (outData s)) true
                   eq_refl eq_refl eq_refl). simpl.
        repeat match goal with |- context [Nat.leb ?a ?b] =>
          destruct (Nat.leb_spec a b) end; simpl; try lia; reflexivity.
Qed.

(* ------------------------------------------------------------------ *)
(** ** Claims: wire frame *)

(** C2: for every correlation id, kind and body of at most 65535 bytes,
    [pack] writes the 5-byte header (little-endian length, kind,
    little-endian correlation id) followed by the body, and [Reader]
    decodes those bytes back into the same correlation id, kind and body. *)
Theorem pack_Reader_roundtrip (h k : Z) (b : list Z) :
  0 <= h < 65536 -> 0 <= k < 256 -> Z.of_nat (length b) <= 65535 ->
  pack h k b = [Z.of_nat (length b) mod 256; Z.of_nat (length b) / 256; k;
                h mod 256; h / 256] ++ b /\
  Reader (pack h k b) = Some (mkData k h b, []).
Proof.
  intros Hh Hk Hl. split.
  - rewrite pack_small by lia. rewrite !uint8_mod, !Z.shiftr_div_pow2 by lia.
    change (2 ^ 8) with 256.
    rewrite (Z.mod_small (Z.of_nat (length b) / 256)), (Z.mod_small (h / 256))
      by (split; [apply Z.div_pos | apply Z.div_lt_upper_bound]; lia).
    reflexivity.
  - rewrite <- (app_nil_r (pack h k b)). apply Reader_pack; assumption.
Qed.

Lemma pack_Reader_roundtrip_witness :
  (0 <= 513 < 65536 /\ 0 <= 3 < 256 /\ Z.of_nat (length [104; 105]) <= 65535) /\
  (pack 513 3 [104; 105] = [2; 0; 3; 1; 2; 104; 105] /\
   Reader (pack 513 3 [104; 105]) = Some (mkData 3 513 [104; 105], [])).
Proof.
  split; [simpl; lia|].
  apply (pack_Reader_roundtrip 513 3 [104; 105]); simpl; lia.
Defined.

(** C6: a body longer than 65535 bytes is packed as a frame whose length
    field is 0 and whose body is empty; decoding it gives an empty body. *)
Theorem pack_oversized (h k : Z) (b : list Z) :
  0 <= h < 65536 -> 0 <= k < 256 -> 65535 < Z.of_nat (length b) ->
  pack h k b = [0; 0; k; h mod 256; h / 256] /\
  Reader (pack h k b) = Some (mkData k h [], []).
Proof.
  intros Hh Hk Hl. rewrite pack_big by lia. split.
  - rewrite !uint8_mod, Z.shiftr_div_pow2 by lia. change (2 ^ 8) with 256.
    rewrite (Z.mod_small (h / 256))
      by (split; [apply Z.div_pos | apply Z.div_lt_upper_bound]; lia).
    reflexivity.
  - change [0; 0; k; uint8 h; uint8 (Z.shiftr h 8)] with (pack h k [] ++ []).
    apply Reader_pack; simpl; lia.
Qed.

Lemma pack_oversized_witness :
  65535 < Z.of_nat (length (repeat 0 (Z.to_nat 65536))) /\
  pack 7 3 (repeat 0 (Z.to_nat 65536)) = [0; 0; 3; 7; 0] /\
  Reader (pack 7 3 (repeat 0 (Z.to_nat 65536))) = Some (mkData 3 7 [], []).
Proof.
  assert (Hl : 65535 < Z.of_nat (length (repeat 0 (Z.to_nat 65536))))
    by (rewrite repeat_length; lia).
  split; [exact Hl|].
  apply (pack_oversized 7 3 (repeat 0 (Z.to_nat 65536))); lia.
Defined.

(* ------------------------------------------------------------------ *)
(** ** Claims: session state machine *)

(** C3 (as stated, refuted): [Start] after [Close] moves a session from
    CLOSING back to WORKING, so not every sequence of calls moves forward. *)
Lemma session_ops_backward :
  ~ (forall (s : session) (ops : list session_op) (tr : list Z),
       run_ops s ops = Some tr -> forward tr = true).
Proof.
  intros H.
  specialize (H (CreateSession 1) [OpStart; OpClose; OpStart] [0; 1; 2; 1] eq_refl).
  discriminate H.
Qed.

(** C3 (amended): [Start], [Close] and [Release] set the state to
    WORKING, CLOSING and CLOSED whatever it was.  From a new session a
    sequence of these calls with at most one [Release] visits NEW and then
    the target of each call in turn, a second [Release] panics, and the
    trace moves forward exactly when the targets of the calls do. *)
Theorem session_ops_trace (fd_ : Z) (ops : list session_op) :
  run_ops (CreateSession fd_) ops =
    (if Nat.leb (count_release ops) 1
     then Some (NEW_CONNECTION :: map op_target ops) else None) /\
  forward (NEW_CONNECTION :: map op_target ops) = forward (map op_target ops).
Proof.
  split.
  - rewrite (run_ops_flags ops (CreateSession fd_) false eq_refl eq_refl eq_refl).
    rewrite Nat.add_0_r. reflexivity.
  - destruct ops as [|[] ops]; reflexivity.
Qed.

(** C4: once [Release] has run on a session, a second [Release] panics
    (closing an already closed channel). *)
Theorem Release_twice_panics (s s' : session) :
  Release s = Some s' -> Release s' = None.
Proof.
  unfold Release, close_chan.
  destruct (inData_closed s), (outData_closed s), (cClose_closed s);
    simpl; intros H; try discriminate H.
  injection H as <-. reflexivity.
Qed.

Lemma Release_twice_panics_witness :
  Release (Start (CreateSession 1)) = Some (mkSession 1 CLOSED true true true []) /\
  Release (mkSession 1 CLOSED true true true []) = None.
Proof.
  split; [reflexivity|].
  apply (Release_twice_panics (Start (CreateSession 1))). reflexivity.
Defined.

(** C7: [doWrite] on a session that is not WORKING leaves it unchanged
    (the frame is dropped); on a WORKING session it packs the frame and
    appends it to the outbound queue [outData]. *)
Theorem doWrite_state_gate (s : session) (h k : Z) (d : list Z) :
  lifecycle s ->
  (state s <> WORKING -> doWrite h k d s = Some s) /\
  (state s = WORKING ->
   doWrite h k d s =
     Some (mkSession (fd s) (state s) (inData_closed s) (outData_closed s)
             (cClose_closed s) (outData s ++ [pack h k d]))).
Proof.
  intros Hs. rewrite (doWrite_lifecycle s h k d Hs).
  split; intros Hst; destruct (Z.eqb_spec (state s) WORKING); tauto.
Qed.

Lemma doWrite_state_gate_witness :
  lifecycle (Start (CreateSession 1)) /\
  doWrite 9 DATA [65] (Start (CreateSession 1)) =
    Some (mkSession 1 WORKING false false false [[1; 0; 3; 9; 0; 65]]).
Proof.
  assert (Hs : lifecycle (Start (CreateSession 1))) by apply lc_started.
  split; [exact Hs|].
  apply (doWrite_state_gate (Start (CreateSession 1)) 9 DATA [65] Hs).
  reflexivity.
Defined.

(* ------------------------------------------------------------------ *)
(** ** Claims: heartbeat on the server *)

(** C8: a HEARTBEAT frame taken by the server's dispatch loop from a
    WORKING session queues a HEARTBEAT_RET frame with an empty body and the
    same correlation id (and reports the heartbeat to the handler); on a
    session that is not WORKING nothing is sent and nothing reported. *)
Theorem server_heartbeat_reply (s : session) (d : Data) :
  lifecycle s -> dType d = HEARTBEAT -> 0 <= head d < 65536 ->
  (state s = WORKING ->
   exists s', server_process_frame s d = Some (s', [EvHeartbeat (fd s) (head d)]) /\
     outData s' = outData s ++ [pack (head d) HEARTBEAT_RET []] /\
     Reader (pack (head d) HEARTBEAT_RET []) = Some (mkData HEARTBEAT_RET (head d) [], [])) /\
  (state s <> WORKING -> server_process_frame s d = Some (s, [])).
Proof.
  intros Hs Hk Hh. unfold server_process_frame. rewrite Hk. simpl.
  rewrite (doWrite_lifecycle s (head d) HEARTBEAT_RET [] Hs).
  destruct (Z.eqb_spec (state s) WORKING) as [Hw|Hw]; simpl.
  - split; [|tauto]. intros _.
    eexists. split; [reflexivity|]. split; [reflexivity|].
    rewrite <- (app_nil_r (pack (head d) HEARTBEAT_RET [])).
    apply Reader_pack; unfold HEARTBEAT_RET; simpl; lia.
  - split; [tauto|]. intros _. reflexivity.
Qed.

Lemma server_heartbeat_reply_witness :
  exists s', server_process_frame (Start (CreateSession 1)) (mkData HEARTBEAT 42 []) =
               Some (s', [EvHeartbeat 1 42]) /\
             outData s' = [pack 42 HEARTBEAT_RET []] /\
             Reader (pack 42 HEARTBEAT_RET []) = Some (mkData HEARTBEAT_RET 42 [], []).
Proof.
  apply (server_heartbeat_reply (Start (CreateSession 1)) (mkData HEARTBEAT 42 []));
    [apply lc_started | reflexivity | simpl; lia | reflexivity].
Defined.

(* ------------------------------------------------------------------ *)
(** ** Claims: RPC server *)

(** C1 (code defect): [Server.Message] on the envelope [["Arith.Add","x"]]
    for a method [Add(int)] panics in [reflect.Value.Convert] instead of
    dropping the frame, whatever the JSON encoder and the method do. *)
Theorem Server_Message_convert_panics
    (marshal : list jvalue -> option (list Z))
    (invoke : methodType -> list gvalue -> list jvalue) :
  json_unmarshal add_x_body = Some [JStr "Arith.Add"; JStr "x"] /\
  Server_Message json_unmarshal marshal invoke arith_server 1 7 add_x_body = None.
Proof. split; reflexivity. Qed.

(* ------------------------------------------------------------------ *)
(** ** Claims: RPC client *)

(** C5: when [Call] times out it returns an empty result and the table
    keeps the entry it registered under the call's correlation id. *)
Theorem Call_timeout_keeps_entry
    (marshal : list jvalue -> option (list Z)) (c : client) (v : list jvalue)
    (b : list Z) :
  lifecycle (csession c) -> marshal v = Some b ->
  exists c', Client_Call marshal c v WaitTimeout = Some (c', []) /\
    callRet c' = <[uint16 (msgCounter c + 1) := next_chan c]> (callRet c) /\
    callRet c' !! uint16 (msgCounter c + 1) = Some (next_chan c).
Proof.
  intros Hs Hm. unfold Client_Call, GetNum. simpl. rewrite Hm.
  rewrite (doWrite_lifecycle (csession c) _ DATA b Hs).
  destruct (state (csession c) =? WORKING); simpl;
    (eexists; split; [reflexivity|]; simpl; split; [reflexivity|];
     apply lookup_insert_eq).
Qed.

Lemma Call_timeout_keeps_entry_witness :
  exists c', Client_Call (fun _ => Some [91; 93]) one_call_client [] WaitTimeout = Some (c', []) /\
    callRet c' = <[6 := 1%nat]> (callRet one_call_client) /\
    callRet c' !! 6 = Some 1%nat.
Proof.
  apply (Call_timeout_keeps_entry (fun _ => Some [91; 93]) one_call_client [] [91; 93]);
    [apply lc_started | reflexivity].
Defined.

(** C9 (code bug): the server answers a method with no results by a DATA
    frame with an empty body, so that the pending call is released; the
    client's [json.Unmarshal] rejects the empty body, so even a waiter
    whose [Call] is blocked in its [select] receives nothing, its entry
    stays in the table and its channel stays open. *)
Theorem Client_Message_void_reply_dropped (receivers : gset chan_id) (c : client)
    (fd_ X : Z) (w : chan_id) :
  callRet c !! X = Some w -> w ∈ receivers -> w ∉ closed_chans c ->
  Client_Message json_unmarshal receivers c fd_ X [] = Some c.
Proof. intros Hx _ _. unfold Client_Message. rewrite Hx. reflexivity. Qed.

Lemma Client_Message_void_reply_dropped_witness :
  callRet one_call_client !! 5 = Some 0%nat /\
  Client_Message json_unmarshal {[0%nat]} one_call_client 1 5 [] = Some one_call_client.
Proof.
  split; [reflexivity|].
  apply (Client_Message_void_reply_dropped {[0%nat]} one_call_client 1 5 0%nat);
    [reflexivity | set_solver | set_solver].
Defined.

(** C10: a response whose correlation id has no entry in the table leaves
    the client unchanged: no waiter receives anything. *)
Theorem Client_Message_unmatched
    (unmarshal : list Z -> option (list jvalue)) (receivers : gset chan_id)
    (c : client) (fd_ sid : Z) (b : list Z) :
  callRet c !! sid = None -> Client_Message unmarshal receivers c fd_ sid b = Some c.
Proof. intros H. unfold Client_Message. rewrite H. reflexivity. Qed.

Lemma Client_Message_unmatched_witness :
  callRet one_call_client !! 6 = None /\
  Client_Message json_unmarshal {[0%nat]} one_call_client 1 6 [91; 93] = Some one_call_client.
Proof.
  split; [reflexivity|].
  apply (Client_Message_unmatched json_unmarshal {[0%nat]} one_call_client 1 6 [91; 93]).
  reflexivity.
Defined.

(* ------------------------------------------------------------------ *)
(** ** Further properties: wire frame and pumps *)

Lemma length_pack (h k : Z) (b : list Z) : (5 <= length (pack h k b))%nat.
Proof. unfold pack. destruct (65535 <? _); simpl; lia. Qed.

(** A stream shorter than a header is a read error. *)
Theorem Reader_short_header (conn : list Z) :
  (length conn < 5)%nat -> Reader conn = None.
Proof.
  intros H. unfold Reader, read_full.
  rewrite (proj2 (Nat.leb_gt _ _) H). reflexivity.
Qed.

Lemma Reader_short_header_witness : Reader [1; 0; 3] = None.
Proof. apply Reader_short_header. simpl. lia. Defined.

(** A packed frame cut anywhere before its last byte is a read error: no
    truncated frame is ever decoded. *)
Theorem Reader_truncated (h k : Z) (b : list Z) (n : nat) :
  frame_ok h k b -> (n < length (pack h k b))%nat ->
  Reader (take n (pack h k b)) = None.
Proof.
  intros (Hh & Hk & Hl) Hn.
  destruct (Nat.lt_ge_cases n 5) as [H5|H5].
  - apply Reader_short_header. rewrite length_take. lia.
  - rewrite pack_small in * by lia. rewrite length_app in Hn. simpl length in Hn.
    rewrite take_app_ge by (simpl; lia). simpl length.
    unfold Reader, read_full. simpl.
    rewrite !uint16_split by lia.
    rewrite (proj2 (Z.ltb_lt 0 _)) by lia.
    rewrite Nat2Z.id, drop_0, (proj2 (Nat.leb_gt _ _)) by (rewrite length_take; lia).
    reflexivity.
Qed.

Lemma Reader_truncated_witness :
  Reader (take 6 (pack 1 DATA [7; 8])) = None.
Proof.
  apply Reader_truncated; [unfold frame_ok, DATA; simpl; lia | simpl; lia].
Defined.

Lemma read_loop_frames (s : session) (fs : list Data) (fuel : nat) :
  state s = WORKING -> inData_closed s = false ->
  Forall (fun d => frame_ok (head d) (dType d) (body d)) fs ->
  (length fs < fuel)%nat ->
  read_loop fuel s (concat (map (fun d => pack (head d) (dType d) (body d)) fs)) = fs.
Proof.
  intros Hst Hin. revert fuel.
  induction fs as [|d fs IH]; intros fuel Hok Hf; destruct fuel as [|f]; simpl in Hf; try lia.
  - simpl. rewrite Hst. reflexivity.
  - inversion Hok as [|? ? (Hh & Hk & Hl) Hok']; subst.
    simpl. rewrite Hst. simpl.
    rewrite Reader_pack by assumption. rewrite Hin.
    rewrite IH by (assumption || lia). destruct d; reflexivity.
Qed.

Lemma length_concat_pack (fs : list Data) :
  (5 * length fs <= length (concat (map (fun d => pack (head d) (dType d) (body d)) fs)))%nat.
Proof.
  induction fs as [|d fs IH]; simpl; [lia|].
  rewrite length_app. pose proof (length_pack (head d) (dType d) (body d)). lia.
Qed.

(** The read pump of a WORKING session pushes on [inData] exactly the
    frames packed one after another on the connection, in order. *)
Theorem handleRead_frames (s : session) (fs : list Data) :
  state s = WORKING -> inData_closed s = false ->
  Forall (fun d => frame_ok (head d) (dType d) (body d)) fs ->
  handleRead s (concat (map (fun d => pack (head d) (dType d) (body d)) fs)) = fs.
Proof.
  intros Hst Hin Hok. unfold handleRead.
  apply read_loop_frames; try assumption.
  pose proof (length_concat_pack fs). lia.
Qed.

Lemma handleRead_frames_witness :
  handleRead (Start (CreateSession 2))
    (concat (map (fun d => pack (head d) (dType d) (body d))
       [mkData HEARTBEAT 4 []; mkData DATA 5 [91; 93]])) =
    [mkData HEARTBEAT 4 []; mkData DATA 5 [91; 93]].
Proof.
  apply handleRead_frames; [reflexivity | reflexivity |].
  repeat constructor; unfold frame_ok, HEARTBEAT, DATA; simpl; lia.
Defined.

Lemma write_all_lifecycle (ws : list (Z * Z * list Z)) : forall s,
  lifecycle s -> state s = WORKING ->
  exists s', write_all ws s = Some s' /\ lifecycle s' /\ state s' = WORKING /\
    inData_closed s' = inData_closed s /\
    outData s' = outData s ++ map (fun '(h, k, d) => pack h k d) ws.
Proof.
  induction ws as [|[[h k] d] ws IH]; intros s Hs Hst.
  - exists s. simpl. rewrite app_nil_r. auto.
  - simpl. pose proof (doWrite_lifecycle s h k d Hs) as Hw.
    rewrite Hst in Hw. simpl in Hw. rewrite Hw. simpl.
    destruct (IH _ (lc_written s h k d _ Hs Hw) eq_refl) as (s' & E & Hs' & Hst' & Hin & Ho).
    exists s'. rewrite E. simpl in *. rewrite Ho, <- app_assoc. auto.
Qed.

(** Frames queued with [doWrite] on a fresh WORKING session are written by
    its write pump and read back, in order and unchanged, by the read pump
    of a WORKING session at the other end. *)
Theorem doWrite_handleWrite_handleRead (s peer : session) (ws : list (Z * Z * list Z)) :
  lifecycle s -> state s = WORKING -> outData s = [] ->
  Forall (fun '(h, k, d) => frame_ok h k d) ws ->
  state peer = WORKING -> inData_closed peer = false ->
  exists s', write_all ws s = Some s' /\
    handleRead peer (snd (handleWrite s')) = map (fun '(h, k, d) => mkData k h d) ws.
Proof.
  intros Hs Hst Hq Hok Hp Hpin.
  destruct (write_all_lifecycle ws s Hs Hst) as (s' & E & _ & Hst' & _ & Ho).
  exists s'. split; [exact E|].
  unfold handleWrite. rewrite Hst'. simpl. rewrite Ho, Hq. simpl.
  set (fs := map (fun '(h, k, d) => mkData k h d) ws).
  replace (map (fun '(h, k, d) => pack h k d) ws)
    with (map (fun d => pack (head d) (dType d) (body d)) fs)
    by (unfold fs; rewrite map_map; apply map_ext; intros [[? ?] ?]; reflexivity).
  unfold handleRead. apply read_loop_frames; try assumption.
  - unfold fs. rewrite Forall_map. eapply Forall_impl; [exact Hok|].
    intros [[h k] d]. simpl. tauto.
  - pose proof (length_concat_pack fs). lia.
Qed.

Lemma doWrite_handleWrite_handleRead_witness :
  exists s', write_all [(1, HEARTBEAT, []); (2, DATA, [91; 93])] (Start (CreateSession 1)) = Some s' /\
    handleRead (Start (CreateSession 2)) (snd (handleWrite s')) =
      [mkData HEARTBEAT 1 []; mkData DATA 2 [91; 93]].
Proof.
  apply (doWrite_handleWrite_handleRead (Start (CreateSession 1)) (Start (CreateSession 2))
           [(1, HEARTBEAT, []); (2, DATA, [91; 93])]);
    [apply lc_started | reflexivity | reflexivity | | reflexivity | reflexivity].
  repeat constructor; unfold HEARTBEAT, DATA; simpl; lia.
Defined.

(* ------------------------------------------------------------------ *)
(** ** Further properties: session lifecycle and id counter *)

(** [doWrite] never panics on a session the connection managers built: a
    write to a session that is closing or released is dropped. *)
Theorem doWrite_never_panics (s : session) (h k : Z) (d : list Z) :
  lifecycle s -> exists s', doWrite h k d s = Some s'.
Proof.
  intros Hs. rewrite (doWrite_lifecycle s h k d Hs).
  destruct (state s =? WORKING); eauto.
Qed.

Lemma doWrite_never_panics_witness :
  exists s', doWrite 3 DATA [1] (mkSession 1 CLOSED true true true []) = Some s'.
Proof.
  apply doWrite_never_panics.
  apply (lc_released (Start (CreateSession 1))); [apply lc_started | reflexivity].
Defined.

Lemma lifecycle_flags (s : session) :
  lifecycle s -> outData_closed s = inData_closed s /\ cClose_closed s = inData_closed s.
Proof.
  induction 1 as [fd_|fd_|s Hs IH|s h k d s' Hs IH Hw|s s' Hs IH Hr]; simpl; auto.
  - unfold doWrite, send_outData in Hw.
    destruct (negb _); [injection Hw as <-; exact IH|].
    destruct (outData_closed s); [discriminate|]. injection Hw as <-. exact IH.
  - unfold Release, close_chan in Hr.
    destruct (inData_closed s), (outData_closed s), (cClose_closed s);
      simpl in Hr; try discriminate.
    injection Hr as <-. auto.
Qed.

(** On a session the connection managers built, [Release] panics exactly
    when the session has already been released. *)
Theorem Release_panics_iff_released (s : session) :
  lifecycle s -> (Release s = None <-> inData_closed s = true).
Proof.
  intros Hs. destruct (lifecycle_flags s Hs) as [Ho Hc].
  unfold Release, close_chan. rewrite Ho, Hc.
  destruct (inData_closed s); simpl; split; congruence.
Qed.

Lemma Release_panics_iff_released_witness :
  Release (Close (Start (CreateSession 1))) <> None.
Proof.
  rewrite (Release_panics_iff_released (Close (Start (CreateSession 1))));
    [discriminate | apply lc_closed, lc_started].
Defined.

Lemma get_nums_mod (n : nat) : forall num,
  get_nums num n = map (fun i => (num + Z.of_nat i) mod 65536) (seq 1 n).
Proof.
  induction n as [|n IH]; intros num; [reflexivity|].
  simpl. rewrite IH, uint16_mod. f_equal.
  rewrite <- (seq_shift n 1), map_map. apply map_ext. intros i.
  rewrite Zplus_mod_idemp_l. f_equal. lia.
Qed.

(** [GetNum] never returns the same id twice within 65536 successive
    calls, and every id is a 16-bit value. *)
Theorem get_nums_distinct (num : Z) (n : nat) :
  Z.of_nat n <= 65536 ->
  NoDup (get_nums num n) /\ Forall (fun x => 0 <= x < 65536) (get_nums num n).
Proof.
  intros Hn. rewrite get_nums_mod. split.
  - apply NoDup_ListNoDup, NoDup_map_NoDup_ForallPairs; [|apply seq_NoDup].
    intros i j Hi Hj Heq. apply in_seq in Hi, Hj.
    apply Nat2Z.inj. Z.div_mod_to_equations. lia.
  - apply List.Forall_forall. intros x Hx. apply in_map_iff in Hx.
    destruct Hx as (i & <- & _). apply Z.mod_pos_bound. lia.
Qed.

Lemma get_nums_distinct_witness :
  get_nums 65534 3 = [65535; 0; 1] /\
  NoDup (get_nums 65534 3) /\ Forall (fun x => 0 <= x < 65536) (get_nums 65534 3).
Proof.
  split; [reflexivity|]. apply get_nums_distinct. simpl. lia.
Defined.

(* ------------------------------------------------------------------ *)
(** ** Further properties: RPC server *)

Section ServerProps.
Variable unmarshal : list Z -> option (list jvalue).
Variable marshal : list jvalue -> option (list Z).
Variable invoke : methodType -> list gvalue -> list jvalue.

(** [Server.Message] drops the frame, without a reply and without a panic,
    when the fd has no session, the body does not decode, the array is
    empty, the first element has no '.', or the service or the method is
    not registered. *)
Theorem Server_Message_drops (srv : Server) (fd_ sid : Z) (b : list Z) :
  (sessions srv !! fd_ = None ->
   Server_Message unmarshal marshal invoke srv fd_ sid b = Some MsgDropped) /\
  (unmarshal b = None ->
   Server_Message unmarshal marshal invoke srv fd_ sid b = Some MsgDropped) /\
  (unmarshal b = Some [] ->
   Server_Message unmarshal marshal invoke srv fd_ sid b = Some MsgDropped) /\
  (forall info rest, unmarshal b = Some (JStr info :: rest) ->
   last_index "." info = None ->
   Server_Message unmarshal marshal invoke srv fd_ sid b = Some MsgDropped) /\
  (forall info rest dot, unmarshal b = Some (JStr info :: rest) ->
   last_index "." info = Some dot ->
   serviceMap srv !! substring 0 dot info = None ->
   Server_Message unmarshal marshal invoke srv fd_ sid b = Some MsgDropped) /\
  (forall info rest dot sInfo, unmarshal b = Some (JStr info :: rest) ->
   last_index "." info = Some dot ->
   serviceMap srv !! substring 0 dot info = Some sInfo ->
   methods sInfo !! substring (S dot) (String.length info - S dot) info = None ->
   Server_Message unmarshal marshal invoke srv fd_ sid b = Some MsgDropped).
Proof.
  unfold Server_Message.
  split; [intros H; rewrite H; reflexivity|].
  destruct (sessions srv !! fd_) as [s|]; [|repeat split; intros; reflexivity].
  split; [intros H; rewrite H; reflexivity|].
  split; [intros H; rewrite H; reflexivity|].
  split; [intros info rest H Hd; rewrite H, Hd; reflexivity|].
  split; [intros info rest dot H Hd Hs; rewrite H, Hd, Hs; reflexivity|].
  intros info rest dot sInfo H Hd Hs Hm. rewrite H, Hd, Hs, Hm. reflexivity.
Qed.

(** [args[0].(string)]: a first element that is not a string panics. *)
Theorem Server_Message_head_not_string (srv : Server) (fd_ sid : Z) (b : list Z)
    (s : session) (a0 : jvalue) (rest : list jvalue) :
  sessions srv !! fd_ = Some s -> unmarshal b = Some (a0 :: rest) ->
  (forall str, a0 <> JStr str) ->
  Server_Message unmarshal marshal invoke srv fd_ sid b = None.
Proof.
  intros Hs Hu Ha. unfold Server_Message. rewrite Hs, Hu.
  destruct a0; try reflexivity. exfalso. eapply Ha. reflexivity.
Qed.
End ServerProps.

Lemma Server_Message_drops_witness :
  Server_Message json_unmarshal (fun _ => None) (fun _ _ => []) arith_server 2 7 add_x_body
    = Some MsgDropped.
Proof.
  apply (proj1 (Server_Message_drops json_unmarshal (fun _ => None) (fun _ _ => [])
                  arith_server 2 7 add_x_body)).
  reflexivity.
Defined.

Lemma Server_Message_head_not_string_witness :
  Server_Message json_unmarshal (fun _ => None) (fun _ _ => []) arith_server 1 7 [91; 52; 93]
    = None.
Proof.
  apply (Server_Message_head_not_string json_unmarshal (fun _ => None) (fun _ _ => [])
           arith_server 1 7 [91; 52; 93] (Start (CreateSession 1)) (JNum 4) []);
    [reflexivity | reflexivity | discriminate].
Defined.

(** The argument loop of [Server.Message]: with fewer arguments than
    parameters it panics (index out of range); arguments beyond the
    parameters are ignored. *)
Theorem convert_args_arity (ts : list gotype) (xs ys : list jvalue) :
  ((length xs < length ts)%nat -> convert_args ts xs = None) /\
  ((length ts <= length xs)%nat -> convert_args ts (xs ++ ys) = convert_args ts xs).
Proof.
  revert xs. induction ts as [|t ts IH]; intros xs; simpl; split; intros H.
  - lia.
  - reflexivity.
  - destruct xs as [|x xs]; [reflexivity|]. simpl in H.
    destruct (convert x t); [|reflexivity]. simpl.
    rewrite (proj1 (IH xs)) by lia. reflexivity.
  - destruct xs as [|x xs]; simpl in H; [lia|]. simpl.
    rewrite (proj2 (IH xs)) by lia. reflexivity.
Qed.

Lemma convert_args_arity_witness :
  convert_args [TInt; TString] [JNum 1] = None /\
  convert_args [TInt] ([JNum 1] ++ [JStr "extra"]) = convert_args [TInt] [JNum 1].
Proof.
  split; [apply (proj1 (convert_args_arity [TInt; TString] [JNum 1] [])); simpl; lia|].
  apply (proj2 (convert_args_arity [TInt] [JNum 1] [JStr "extra"])). simpl. lia.
Defined.

Lemma last_index_split (t m : string) :
  last_index "." m = None ->
  last_index "." (String.append t (String "." m)) = Some (String.length t).
Proof.
  intros Hm. induction t as [|a t IH]; simpl.
  - rewrite Hm. reflexivity.
  - rewrite IH. reflexivity.
Qed.

Lemma substring_prefix (t x : string) :
  substring 0 (String.length t) (String.append t x) = t.
Proof. induction t as [|a t IH]; simpl; [destruct x|rewrite IH]; reflexivity. Qed.

Lemma substring_all (m : string) : substring 0 (String.length m) m = m.
Proof. induction m as [|a m IH]; simpl; [|rewrite IH]; reflexivity. Qed.

Lemma substring_suffix (t m : string) :
  substring (S (String.length t))
    (String.length (String.append t (String "." m)) - S (String.length t))
    (String.append t (String "." m)) = m.
Proof.
  induction t as [|a t IH]; simpl.
  - rewrite Nat.sub_0_r. apply substring_all.
  - exact IH.
Qed.

Lemma method_table_fold_notin (ms : list (string * list gotype)) (acc : gmap string methodType)
    (mn : string) :
  mn ∉ map fst ms ->
  fold_left (fun acc '(mn, ps) => <[mn := mkMethodType mn ps]> acc) ms acc !! mn = acc !! mn.
Proof.
  revert acc. induction ms as [|[a p] ms IH]; intros acc Hn; simpl; [reflexivity|].
  simpl in Hn. rewrite IH by set_solver. apply lookup_insert_ne. set_solver.
Qed.

Lemma method_table_lookup (ms : list (string * list gotype)) (mn : string) (ps : list gotype) :
  NoDup (map fst ms) -> In (mn, ps) ms ->
  method_table ms !! mn = Some (mkMethodType mn ps).
Proof.
  unfold method_table. generalize (∅ : gmap string methodType).
  induction ms as [|[a p] ms IH]; intros acc Hd Hin; [destruct Hin|].
  simpl in Hd. apply NoDup_cons in Hd as [Ha Hd]. simpl.
  destruct Hin as [E|Hin].
  - injection E as -> ->. rewrite method_table_fold_notin by exact Ha.
    apply lookup_insert_eq.
  - apply IH; assumption.
Qed.

(** After [Register] of a receiver and [Connect] of a session, a call
    envelope ["T.m", args...] naming one of the receiver's methods (the
    split is at the last '.') whose arguments convert invokes that method;
    a method with no results is answered by an empty body, otherwise by
    the JSON encoding of the results, on the same correlation id. *)
Theorem Register_Connect_dispatch
    (unmarshal : list Z -> option (list jvalue)) (marshal : list jvalue -> option (list Z))
    (invoke : methodType -> list gvalue -> list jvalue)
    (srv : Server) (r : rtype) (fd_ sid : Z) (s : session) (b : list Z)
    (mn : string) (ps : list gotype) (rest : list jvalue) (vs : list gvalue) :
  NoDup (map fst (tmethods r)) -> In (mn, ps) (tmethods r) -> last_index "." mn = None ->
  unmarshal b = Some (JStr (String.append (tname r) (String "." mn)) :: rest) ->
  convert_args ps rest = Some vs ->
  Server_Message unmarshal marshal invoke (Server_Connect (Register srv r) fd_ s) fd_ sid b =
    Some (match invoke (mkMethodType mn ps) vs with
          | [] => MsgReply s sid []
          | ret => match marshal ret with
                   | None => MsgDropped
                   | Some retBody => MsgReply s sid retBody
                   end
          end).
Proof.
  intros Hd Hin Hm Hu Hc. unfold Server_Message. simpl.
  rewrite lookup_insert_eq, Hu, last_index_split by exact Hm.
  rewrite substring_prefix, lookup_insert_eq. simpl.
  rewrite substring_suffix, (method_table_lookup _ mn ps Hd Hin). simpl.
  rewrite Hc. simpl. unfold RunFunc.
  destruct (invoke _ vs); [reflexivity|]. destruct (marshal _); reflexivity.
Qed.

Lemma Register_Connect_dispatch_witness :
  Server_Message json_unmarshal (fun _ => Some [91; 53; 93]) (fun _ vs => [JNum 5])
    (Server_Connect (Register NewServer (mkRType "Arith" [("Add"%string, [TInt; TInt])]))
       1 (Start (CreateSession 1)))
    1 7 ([91] ++ json_quote "Arith.Add" ++ [44; 50; 44; 51; 93]) =
  Some (MsgReply (Start (CreateSession 1)) 7 [91; 53; 93]).
Proof.
  apply (Register_Connect_dispatch json_unmarshal (fun _ => Some [91; 53; 93]) (fun _ vs => [JNum 5])
           NewServer (mkRType "Arith" [("Add"%string, [TInt; TInt])]) 1 7 (Start (CreateSession 1))
           ([91] ++ json_quote "Arith.Add" ++ [44; 50; 44; 51; 93]) "Add" [TInt; TInt]
           [JNum 2; JNum 3] [GV TInt (JNum 2); GV TInt (JNum 3)]);
    [repeat constructor; simpl; set_solver | left; reflexivity | reflexivity
    | reflexivity | reflexivity].
Defined.

(* ------------------------------------------------------------------ *)
(** ** Further properties: RPC client *)

(** When the arguments cannot be encoded, [Call] returns an empty result
    at once: nothing is registered and nothing is sent, but the
    correlation counter has still advanced. *)
Theorem Call_marshal_error (marshal : list jvalue -> option (list Z)) (c : client)
    (v : list jvalue) (w : wait_outcome) :
  marshal v = None ->
  exists c', Client_Call marshal c v w = Some (c', []) /\
    callRet c' = callRet c /\ csession c' = csession c /\
    msgCounter c' = uint16 (msgCounter c + 1).
Proof.
  intros Hm. unfold Client_Call, GetNum. simpl. rewrite Hm. eexists. repeat split.
Qed.

Lemma Call_marshal_error_witness :
  exists c', Client_Call (fun _ => None) one_call_client [] WaitTimeout = Some (c', []) /\
    callRet c' = callRet one_call_client /\ csession c' = csession one_call_client /\
    msgCounter c' = 6.
Proof. apply (Call_marshal_error (fun _ => None) one_call_client [] WaitTimeout). reflexivity. Defined.

(** On a WORKING session, [Call] registers a fresh waiter under the next
    correlation id, queues one DATA frame carrying that id and the encoded
    arguments, and returns what the waiter yields (empty if it was
    closed). *)
Theorem Call_sends_request (marshal : list jvalue -> option (list Z)) (c : client)
    (v : list jvalue) (b : list Z) (w : wait_outcome) :
  lifecycle (csession c) -> state (csession c) = WORKING -> marshal v = Some b ->
  exists c', Client_Call marshal c v w =
      Some (c', match w with WaitRecv ret => ret | _ => [] end) /\
    callRet c' = <[uint16 (msgCounter c + 1) := next_chan c]> (callRet c) /\
    outData (csession c') = outData (csession c) ++ [pack (uint16 (msgCounter c + 1)) DATA b].
Proof.
  intros Hs Hst Hm. unfold Client_Call, GetNum. simpl. rewrite Hm.
  rewrite (doWrite_lifecycle (csession c) _ DATA b Hs), Hst. simpl.
  eexists. split; [destruct w; reflexivity|]. split; reflexivity.
Qed.

Lemma Call_sends_request_witness :
  exists c', Client_Call (fun _ => Some [91; 93]) one_call_client [] (WaitRecv [JNum 1]) =
      Some (c', [JNum 1]) /\
    callRet c' = <[6 := 1%nat]> (callRet one_call_client) /\
    outData (csession c') = [pack 6 DATA [91; 93]].
Proof.
  apply (Call_sends_request (fun _ => Some [91; 93]) one_call_client [] [91; 93] (WaitRecv [JNum 1]));
    [apply lc_started | reflexivity | reflexivity].
Defined.

(** A response with correlation id [X] whose body decodes, sent while the
    [Call] owning the waiter under [X] is blocked in its [select], is
    handed to that waiter and to no other; the entry for [X] alone is
    removed, and that waiter is closed. *)
Theorem Client_Message_delivers
    (unmarshal : list Z -> option (list jvalue)) (receivers : gset chan_id) (c : client)
    (fd_ X : Z) (b : list Z) (w : chan_id) (args : list jvalue) :
  callRet c !! X = Some w -> w ∉ closed_chans c -> w ∈ receivers -> unmarshal b = Some args ->
  exists c', Client_Message unmarshal receivers c fd_ X b = Some c' /\
    delivered c' = delivered c ++ [(w, args)] /\
    callRet c' = delete X (callRet c) /\
    (forall Y, Y <> X -> callRet c' !! Y = callRet c !! Y) /\
    closed_chans c' = {[w]} ∪ closed_chans c.
Proof.
  intros Hx Hw Hr Hu. unfold Client_Message. rewrite Hx, Hu.
  rewrite decide_False by exact Hw. rewrite decide_True by exact Hr.
  eexists. split; [reflexivity|]. simpl.
  split; [reflexivity|]. split; [reflexivity|]. split; [|reflexivity].
  intros Y HY. apply lookup_delete_ne. congruence.
Qed.

Lemma Client_Message_delivers_witness :
  exists c', Client_Message json_unmarshal {[0%nat]} one_call_client 1 5 [91; 93] = Some c' /\
    delivered c' = [(0%nat, [])] /\
    callRet c' = delete 5 (callRet one_call_client) /\
    (forall Y, Y <> 5 -> callRet c' !! Y = callRet one_call_client !! Y) /\
    closed_chans c' = {[0%nat]} ∪ closed_chans one_call_client.
Proof.
  apply (Client_Message_delivers json_unmarshal {[0%nat]} one_call_client 1 5 [91; 93] 0%nat []);
    [reflexivity | set_solver | set_solver | reflexivity].
Defined.

Lemma Client_Call_registered (marshal : list jvalue -> option (list Z)) (c c1 : client)
    (v : list jvalue) (b : list Z) (w : wait_outcome) (r : list jvalue) :
  lifecycle (csession c) -> marshal v = Some b ->
  Client_Call marshal c v w = Some (c1, r) ->
  exists s', c1 = mkClient (<[uint16 (msgCounter c + 1) := next_chan c]> (callRet c))
                   (uint16 (msgCounter c + 1)) (S (next_chan c)) (closed_chans c)
                   (delivered c) s' /\
    r = match w with WaitRecv ret => ret | _ => [] end.
Proof.
  intros Hs Hm Hc. unfold Client_Call, GetNum in Hc. simpl in Hc.
  rewrite Hm, (doWrite_lifecycle (csession c) _ DATA b Hs) in Hc.
  destruct (state (csession c) =? WORKING); simpl in Hc;
    destruct w; injection Hc as <- <-; eexists; split; reflexivity.
Qed.

(** A [Call] that receives its answer: the response carrying the id the
    call registered, sent while the call is blocked in its [select] on its
    fresh waiter, is handed to that waiter, the call returns it, and
    afterwards the table has no entry for the id, even when an earlier
    call (before the 16-bit counter wrapped) had one: that earlier waiter
    was replaced by [Call] and never receives anything. *)
Theorem Call_then_response (unmarshal : list Z -> option (list jvalue))
    (marshal : list jvalue -> option (list Z)) (c c1 : client) (v : list jvalue)
    (b resp : list Z) (r : list jvalue) (args : list jvalue) (fd_ : Z) :
  lifecycle (csession c) -> marshal v = Some b ->
  Client_Call marshal c v (WaitRecv args) = Some (c1, r) ->
  next_chan c ∉ closed_chans c -> unmarshal resp = Some args ->
  r = args /\
  exists c2, Client_Message unmarshal {[next_chan c]} c1 fd_ (uint16 (msgCounter c + 1)) resp
               = Some c2 /\
    delivered c2 = delivered c ++ [(next_chan c, args)] /\
    callRet c2 = delete (uint16 (msgCounter c + 1)) (callRet c).
Proof.
  intros Hs Hm Hc Hfresh Hu.
  destruct (Client_Call_registered marshal c c1 v b _ r Hs Hm Hc) as [s' [-> ->]].
  split; [reflexivity|].
  unfold Client_Message. simpl. rewrite lookup_insert_eq, Hu, decide_False by exact Hfresh.
  rewrite decide_True by set_solver.
  eexists. split; [reflexivity|]. simpl. split; [reflexivity|].
  apply delete_insert_eq.
Qed.

Lemma Call_then_response_witness :
  ([] : list jvalue) = [] /\
  exists c2, Client_Message json_unmarshal {[1%nat]}
      (mkClient {[ 5 := 1%nat ]} 5 2%nat ∅ []
         (mkSession 1 WORKING false false false [pack 5 DATA [91; 93]])) 1 5 [91; 93] = Some c2 /\
    delivered c2 = [(1%nat, [])] /\
    callRet c2 = delete 5 (callRet (mkClient {[ 5 := 0%nat ]} 65540 1%nat ∅ [] (Start (CreateSession 1)))).
Proof.
  apply (Call_then_response json_unmarshal (fun _ => Some [91; 93])
           (mkClient {[ 5 := 0%nat ]} 65540 1%nat ∅ [] (Start (CreateSession 1)))
           (mkClient {[ 5 := 1%nat ]} 5 2%nat ∅ []
              (mkSession 1 WORKING false false false [pack 5 DATA [91; 93]]))
           [] [91; 93] [91; 93] [] [] 1);
    [apply lc_started | reflexivity | reflexivity | set_solver | reflexivity].
Defined.



Lemma Client_Close_fold (l : list (Z * chan_id)) (cl0 : gset chan_id) :
  NoDup (snd <$> l) -> (forall w, w ∈ snd <$> l -> w ∉ cl0) ->
  foldr (fun '(_, w) acc =>
           acc ≫= fun cl => if decide (w ∈ cl) then None else Some ({[w]} ∪ cl))
        (Some cl0) l = Some (list_to_set (snd <$> l) ∪ cl0).
Proof.
  induction l as [|[i w] l IH]; intros Hd Hc; simpl.
  - rewrite union_empty_l_L. reflexivity.
  - simpl in Hd. apply NoDup_cons in Hd as [Hw Hd].
    rewrite IH by (assumption || (intros; apply Hc; simpl; set_solver)). simpl.
    rewrite decide_False.
    + rewrite union_assoc_L. reflexivity.
    + assert (w ∉ cl0) by (apply Hc; simpl; set_solver).
      rewrite elem_of_union, elem_of_list_to_set. tauto.
Qed.

(** [Client.Close] on a table whose waiters are distinct and still open
    empties the table and closes exactly those waiters, delivering
    nothing. *)
Theorem Client_Close_drains (c : client) :
  (forall i j w, callRet c !! i = Some w -> callRet c !! j = Some w -> i = j) ->
  (forall i w, callRet c !! i = Some w -> w ∉ closed_chans c) ->
  exists c', Client_Close c = Some c' /\ callRet c' = ∅ /\ delivered c' = delivered c /\
    (forall w, w ∈ closed_chans c' <-> w ∈ closed_chans c \/ exists i, callRet c !! i = Some w).
Proof.
  intros Hinj Hopen. unfold Client_Close.
  rewrite Client_Close_fold.
  - simpl. eexists. split; [reflexivity|]. simpl. split; [reflexivity|]. split; [reflexivity|].
    intros w. rewrite elem_of_union, elem_of_list_to_set, list_elem_of_fmap.
    split.
    + intros [([i w'] & -> & Hin) | H]; [right | left; exact H].
      apply elem_of_map_to_list in Hin. exists i. exact Hin.
    + intros [H | (i & Hi)]; [right; exact H | left].
      exists (i, w). split; [reflexivity|]. apply elem_of_map_to_list. exact Hi.
  - apply NoDup_fmap_2_strong; [|apply NoDup_map_to_list].
    intros [i w] [j w'] Hi Hj E. simpl in E. subst w'.
    apply elem_of_map_to_list in Hi, Hj. rewrite (Hinj i j w Hi Hj). reflexivity.
  - intros w Hw. apply list_elem_of_fmap in Hw as ([i w'] & -> & Hin).
    apply elem_of_map_to_list in Hin. exact (Hopen i w' Hin).
Qed.

Lemma Client_Close_drains_witness :
  exists c', Client_Close one_call_client = Some c' /\ callRet c' = ∅ /\
    delivered c' = delivered one_call_client /\
    (forall w, w ∈ closed_chans c' <->
       w ∈ closed_chans one_call_client \/ exists i, callRet one_call_client !! i = Some w).
Proof.
  apply Client_Close_drains.
  - intros i j w Hi Hj. simpl in *.
    apply lookup_singleton_Some in Hi as [<- _]. apply lookup_singleton_Some in Hj as [<- _].
    reflexivity.
  - intros i w _. simpl. set_solver.
Defined.

Lemma one_frame_read (s : session) (h k : Z) :
  state s = WORKING -> inData_closed s = false -> 0 <= h < 65536 -> 0 <= k < 256 ->
  handleRead s (pack h k [] ++ []) = [mkData k h []].
Proof.
  intros Hst Hin Hh Hk.
  pose proof (handleRead_frames s [mkData k h []] Hst Hin) as H. simpl in H.
  apply H. constructor; [|constructor]. unfold frame_ok; simpl. lia.
Qed.

Lemma lifecycle_working_in_open (s : session) :
  lifecycle s -> state s = WORKING -> inData_closed s = false.
Proof.
  intros Hl Hst. destruct (lifecycle_flags s Hl) as [E _].
  rewrite <- E. exact (lifecycle_working_open s Hl Hst).
Qed.

(** A heartbeat round trip between a client and a server session that are
    both WORKING with empty queues: the client writes a HEARTBEAT frame
    with the fresh counter value, the server's read pump decodes it, the
    server answers with a HEARTBEAT_RET frame carrying the same id, and
    the client's read pump decodes the answer into a heartbeat-return
    event for that id. *)
Theorem heartbeat_round_trip (num : Z) (cs ss : session) :
  lifecycle cs -> lifecycle ss -> state cs = WORKING -> state ss = WORKING ->
  outData cs = [] -> outData ss = [] ->
  exists cs1 ss1,
    heartbeat_send num cs = Some (uint16 (num + 1), uint16 (num + 1), cs1) /\
    handleRead ss (snd (handleWrite cs1)) = [mkData HEARTBEAT (uint16 (num + 1)) []] /\
    server_process_frame ss (mkData HEARTBEAT (uint16 (num + 1)) []) =
      Some (ss1, [EvHeartbeat (fd ss) (uint16 (num + 1))]) /\
    handleRead (fst (handleWrite cs1)) (snd (handleWrite ss1)) =
      [mkData HEARTBEAT_RET (uint16 (num + 1)) []] /\
    client_process_frame (fst (handleWrite cs1)) (mkData HEARTBEAT_RET (uint16 (num + 1)) []) =
      [CEvHeartbeatRet (uint16 (num + 1))].
Proof.
  intros Hlc Hls Hc Hs Hoc Hos.
  pose proof (lifecycle_working_in_open cs Hlc Hc) as Hic.
  pose proof (lifecycle_working_in_open ss Hls Hs) as His.
  assert (Hr : 0 <= uint16 (num + 1) < 65536)
    by (rewrite uint16_mod; apply Z.mod_pos_bound; lia).
  unfold heartbeat_send, GetNum, server_process_frame.
  rewrite !doWrite_lifecycle by assumption. rewrite Hc, Hs. simpl.
  eexists. exists (mkSession (fd ss) (state ss) (inData_closed ss) (outData_closed ss)
                     (cClose_closed ss) [pack (uint16 (num + 1)) HEARTBEAT_RET []]).
  split; [reflexivity|].
  unfold handleWrite. simpl. rewrite ?Hc, ?Hs, ?Hoc, ?Hos. simpl.
  split; [apply one_frame_read; unfold HEARTBEAT; (assumption || lia)|].
  split; [rewrite ?Hs; reflexivity|].
  split; [apply one_frame_read; unfold HEARTBEAT_RET; simpl; (assumption || lia)|].
  reflexivity.
Qed.

Lemma heartbeat_round_trip_witness :
  exists cs1 ss1,
    heartbeat_send 65535 (Start (CreateSession 1)) = Some (0, 0, cs1) /\
    handleRead (Start (CreateSession 2)) (snd (handleWrite cs1)) = [mkData HEARTBEAT 0 []] /\
    server_process_frame (Start (CreateSession 2)) (mkData HEARTBEAT 0 []) =
      Some (ss1, [EvHeartbeat 2 0]) /\
    handleRead (fst (handleWrite cs1)) (snd (handleWrite ss1)) = [mkData HEARTBEAT_RET 0 []] /\
    client_process_frame (fst (handleWrite cs1)) (mkData HEARTBEAT_RET 0 []) =
      [CEvHeartbeatRet 0].
Proof.
  exact (heartbeat_round_trip 65535 (Start (CreateSession 1)) (Start (CreateSession 2))
           (lc_started 1) (lc_started 2) eq_refl eq_refl eq_refl eq_refl).
Defined.
